(** * useChat: a shallow embedding of the chat synchronisation hook

    Source: [src/hooks/useChat.tsx].  The hook keeps ten pieces of React
    state, talks to the chat server through one socket, and exposes five
    outbound operations.  The state is a record, a handler is a function
    in a small state-and-output monad ([Hook]) whose output is the list of
    things the handler did to the outside world (socket emissions and
    console lines), and the values a closure captured at render time
    ([info], [getInfo], [chats]) are section variables. *)

From Stdlib Require Import ZArith.
From stdpp Require Import base strings list gmap sorting.

Open Scope Z_scope.

(** ** Data model (the exported interfaces) *)

Module ChatUser.
Record t := mk {
  userId : string;
  userType : string;
  preferredName : string;
  firstName : string;
  lastName : string;
  profilePictureUrl : string;
}.
End ChatUser.

(** [timestamp] is a JS [number]; the embedding takes it to be an integer
    (milliseconds since the epoch), so that subtraction is exact. *)
Module ChatMessage.
Record t := mk {
  messageId : string;
  chatId : string;
  sender : ChatUser.t;
  content : string;
  timestamp : Z;
  isReceived : bool;
  isRead : bool;
  isDeleted : bool;
}.
End ChatMessage.

Module Chat.
Record t := mk {
  chatId : string;
  participants : list ChatUser.t;
  messages : list ChatMessage.t;
}.
End Chat.

(** [interface Chats { [chatId: string]: Chat }]: an object used as a map. *)
Abbreviation Chats := (gmap string Chat.t).

Module ChatSummary.
Record t := mk {
  chatId : string;
  participants : list ChatUser.t;
  latestMessage : ChatMessage.t;
}.
End ChatSummary.

(** [EmitRegisterUserParams] has exactly the fields of [ChatUser]. *)
Abbreviation EmitRegisterUserParams := ChatUser.t.

Module EmitListChatsParams.
Record t := mk { userId : string }.
End EmitListChatsParams.

Module EmitListMessagesParams.
Record t := mk { roomId : string; userId : string }.
End EmitListMessagesParams.

Module EmitSendMessageParams.
Record t := mk {
  roomId : string;
  sender : ChatUser.t;
  message : string;
  timestamp : Z;
}.
End EmitSendMessageParams.

Module EmitReadMessagesParams.
Record t := mk { chatId : string; unreadMessages : list ChatMessage.t }.
End EmitReadMessagesParams.

(** Modelled from the spec: the [info] object of [useTeacherContext]
    ([../context/teacherContext] is not part of the sources).  The hook
    reads five fields of it, each of which may be absent or empty
    ("currentIdentity() (may be incomplete/empty)"). *)
Module Info.
Record t := mk {
  teacherID : option string;
  preferredName : option string;
  firstName : option string;
  lastName : option string;
  profilePictureURL : option string;
}.
End Info.

(** ** JavaScript values *)

(** Truthiness of a [string | undefined]: [undefined] and the empty string
    are falsy. *)
Definition truthy (v : option string) : bool :=
  match v with
  | Some s => negb (String.eqb s "")
  | None => false
  end.

(** Truthiness of an object reference that may be [null] or [undefined]. *)
Definition present {A : Type} (v : option A) : bool :=
  match v with
  | Some _ => true
  | None => false
  end.

(** [v || d] on strings. *)
Definition or_default (v : option string) (d : string) : string :=
  if truthy v then default d v else d.

(** The string behind a truthy value. *)
Definition the_string (v : option string) : string := default ""%string v.

(** ** The socket and what a handler can do to the outside world *)

(** Payload of [readMessages]. *)
Module ReadMessagesPayload.
Record t := mk { roomId : string; unreadMessages : list string }.
End ReadMessagesPayload.

(** The six outbound events of the hook, each with its payload.  The
    payload of [receiveMessage] is [incomingChat.messages[0]], which is
    [undefined] ([None]) for an empty array. *)
Inductive OutEvent :=
  | registerUser (params : EmitRegisterUserParams)
  | listChatRooms (params : EmitListChatsParams.t)
  | listMessages (params : EmitListMessagesParams.t)
  | sendMessage (params : EmitSendMessageParams.t)
  | readMessages (payload : ReadMessagesPayload.t)
  | receiveMessage (payload : option ChatMessage.t).

(** The eight inbound events the hook subscribes to. *)
Inductive InEvent :=
  | userRegistered (userId : string)
  | registerUserError (error : string)
  | chatsList (chatsList : list ChatSummary.t)
  | listChatsError (error : string)
  | messagesList (chatId : string) (participants : list ChatUser.t)
                 (messagesList : list ChatMessage.t)
  | messageReceived (message : ChatMessage.t)
  | messageRead (messageId : string)
  | newMessage (incomingChat : Chat.t).

Definition event_name (e : InEvent) : string :=
  match e with
  | userRegistered _ => "userRegistered"
  | registerUserError _ => "registerUserError"
  | chatsList _ => "chatsList"
  | listChatsError _ => "listChatsError"
  | messagesList _ _ _ => "messagesList"
  | messageReceived _ => "messageReceived"
  | messageRead _ => "messageRead"
  | newMessage _ => "newMessage"
  end.

(** A socket: where it connects to and the events it has a listener for. *)
Module Socket.
Record t := mk { uri : string; listeners : list string }.
End Socket.

Definition io (uri : string) : Socket.t := Socket.mk uri [].

Definition on (name : string) (s : Socket.t) : Socket.t :=
  Socket.mk (Socket.uri s) (Socket.listeners s ++ [name]).

Inductive Effect :=
  | Emit (e : OutEvent)
  | ConsoleLog (args : list string)
  | ConsoleError (args : list string).

Definition is_console_error (x : Effect) : bool :=
  match x with ConsoleError _ => true | _ => false end.

Definition is_registerUser (x : Effect) : bool :=
  match x with Emit (registerUser _) => true | _ => false end.

(** The emissions among the effects, in order. *)
Definition emissions (l : list Effect) : list OutEvent :=
  omap (λ x, match x with Emit e => Some e | _ => None end) l.

(** ** The state of the hook: [socketRef] and the nine [useState] cells *)

Module State.
Record t := mk {
  socketRef : option Socket.t;
  isRegistering : bool;
  isRegistered : bool;
  chats : Chats;
  chatsList : list Chat.t;
  chatSummaries : list ChatSummary.t;
  areChatsLoading : bool;
  areChatsLoaded : bool;
  chatMessages : list ChatMessage.t;
  areMessagesLoading : bool;
}.

(** The state of the first render. *)
Definition init : t := mk None false false ∅ [] [] false false [] false.

(** One updater per cell: the record with that field replaced. *)
Definition set_socketRef (v : option Socket.t) (st : t) : t :=
  mk v (isRegistering st) (isRegistered st) (chats st) (chatsList st)
    (chatSummaries st) (areChatsLoading st) (areChatsLoaded st) (chatMessages
    st) (areMessagesLoading st).
Definition set_isRegistering (v : bool) (st : t) : t :=
  mk (socketRef st) v (isRegistered st) (chats st) (chatsList st)
    (chatSummaries st) (areChatsLoading st) (areChatsLoaded st) (chatMessages
    st) (areMessagesLoading st).
Definition set_isRegistered (v : bool) (st : t) : t :=
  mk (socketRef st) (isRegistering st) v (chats st) (chatsList st)
    (chatSummaries st) (areChatsLoading st) (areChatsLoaded st) (chatMessages
    st) (areMessagesLoading st).
Definition set_chats (v : Chats) (st : t) : t :=
  mk (socketRef st) (isRegistering st) (isRegistered st) v (chatsList st)
    (chatSummaries st) (areChatsLoading st) (areChatsLoaded st) (chatMessages
    st) (areMessagesLoading st).
Definition set_chatSummaries (v : list ChatSummary.t) (st : t) : t :=
  mk (socketRef st) (isRegistering st) (isRegistered st) (chats st)
    (chatsList st) v (areChatsLoading st) (areChatsLoaded st) (chatMessages
    st) (areMessagesLoading st).
Definition set_areChatsLoading (v : bool) (st : t) : t :=
  mk (socketRef st) (isRegistering st) (isRegistered st) (chats st)
    (chatsList st) (chatSummaries st) v (areChatsLoaded st) (chatMessages st)
    (areMessagesLoading st).
Definition set_areChatsLoaded (v : bool) (st : t) : t :=
  mk (socketRef st) (isRegistering st) (isRegistered st) (chats st)
    (chatsList st) (chatSummaries st) (areChatsLoading st) v (chatMessages st)
    (areMessagesLoading st).
Definition set_chatMessages (v : list ChatMessage.t) (st : t) : t :=
  mk (socketRef st) (isRegistering st) (isRegistered st) (chats st)
    (chatsList st) (chatSummaries st) (areChatsLoading st) (areChatsLoaded st)
    v (areMessagesLoading st).
Definition set_areMessagesLoading (v : bool) (st : t) : t :=
  mk (socketRef st) (isRegistering st) (isRegistered st) (chats st)
    (chatsList st) (chatSummaries st) (areChatsLoading st) (areChatsLoaded st)
    (chatMessages st) v.
End State.

(** ** The monad of handlers: state passing plus the effects performed *)

Definition Hook (A : Type) : Type := State.t → A * State.t * list Effect.

Global Instance hook_ret : MRet Hook := λ A a st, (a, st, []).

Global Instance hook_bind : MBind Hook := λ A B f m st,
  let '(a, st1, out1) := m st in
  let '(b, st2, out2) := f a st1 in
  (b, st2, out1 ++ out2).

Definition get : Hook State.t := λ st, (st, st, []).
Definition modify (f : State.t → State.t) : Hook unit := λ st, (tt, f st, []).
Definition tell (x : Effect) : Hook unit := λ st, (tt, st, [x]).

Definition state_of {A} (r : A * State.t * list Effect) : State.t := r.1.2.
Definition effects_of {A} (r : A * State.t * list Effect) : list Effect := r.2.

Definition console_log (args : list string) : Hook unit := tell (ConsoleLog args).
Definition console_error (args : list string) : Hook unit := tell (ConsoleError args).

(** [socketRef.current?.emit(name, payload)]: nothing happens without a socket. *)
Definition emit (e : OutEvent) : Hook unit := λ st,
  match State.socketRef st with
  | Some _ => (tt, st, [Emit e])
  | None => (tt, st, [])
  end.

(** The state setters. *)
Definition setSocketRef (v : option Socket.t) : Hook unit :=
  modify (State.set_socketRef v).
Definition setIsRegistering (v : bool) : Hook unit :=
  modify (State.set_isRegistering v).
Definition setIsRegistered (v : bool) : Hook unit :=
  modify (State.set_isRegistered v).
Definition setChats (v : Chats) : Hook unit :=
  modify (State.set_chats v).
Definition setChatSummaries (v : list ChatSummary.t) : Hook unit :=
  modify (State.set_chatSummaries v).
Definition setAreChatsLoading (v : bool) : Hook unit :=
  modify (State.set_areChatsLoading v).
Definition setAreChatsLoaded (v : bool) : Hook unit :=
  modify (State.set_areChatsLoaded v).
Definition setChatMessages (v : list ChatMessage.t) : Hook unit :=
  modify (State.set_chatMessages v).
Definition setAreMessagesLoading (v : bool) : Hook unit :=
  modify (State.set_areMessagesLoading v).

(** ** [Array.prototype.toSorted]

    ECMAScript leaves the algorithm open but fixes the result for a
    consistent comparator: the elements in ascending order of the
    comparator, equal elements in their original order.  The model is a
    stable insertion sort: going from the right, [x] is put before the
    first element it does not compare greater than.  [toSorted_unique]
    below shows that, for the comparator of [onChatsList], every stable
    sort returns this very list. *)
Section ToSorted.
Context {A : Type} (compareFn : A → A → Z).

Fixpoint sorted_insert (x : A) (l : list A) : list A :=
  match l with
  | [] => [x]
  | y :: l' =>
      if compareFn x y <=? 0 then x :: y :: l' else y :: sorted_insert x l'
  end.

Definition toSorted (l : list A) : list A := foldr sorted_insert [] l.
End ToSorted.

(** [(a, b) => b.latestMessage.timestamp - a.latestMessage.timestamp] *)
Definition byLatestDesc (a b : ChatSummary.t) : Z :=
  ChatMessage.timestamp (ChatSummary.latestMessage b)
  - ChatMessage.timestamp (ChatSummary.latestMessage a).

Definition latest (a : ChatSummary.t) : Z :=
  ChatMessage.timestamp (ChatSummary.latestMessage a).

(** Latest message first. *)
Definition newestFirst (a b : ChatSummary.t) : Prop := latest b ≤ latest a.

(** The summaries of one timestamp, in the order of the list. *)
Definition at_time (t : Z) (l : list ChatSummary.t) : list ChatSummary.t :=
  filter (λ a, latest a = t) l.

(** ** The handlers and operations of one render

    [info] and [getInfo] come from [useTeacherContext()]; [chats] is the
    value of the [chats] state cell in the render that created the
    closures.  (The socket listeners are installed once, by the first run
    of the effect, so the [chats] they see is the one of the first render;
    see [deliver].) *)
Section Render.
Variable info : Info.t.
Variable getInfo : unit → option Info.t.
Variable chats : Chats.

(** *** User registration *)

Definition emitRegisterUser (params : EmitRegisterUserParams) : Hook unit :=
  setIsRegistering true ;;
  emit (registerUser params).

(** *** Chats list *)

Definition emitListChats (params : EmitListChatsParams.t) : Hook unit :=
  setAreChatsLoading true ;;
  setAreChatsLoaded false ;;
  emit (listChatRooms params).

Definition onUserRegistered (userId : string) : Hook unit :=
  setIsRegistering false ;;
  setIsRegistered true ;;
  emitListChats (EmitListChatsParams.mk userId).

Definition onRegisterUserError (error : string) : Hook unit :=
  console_error ["Error registering user:"; error]%string.

Definition onChatsList (chatsList : list ChatSummary.t) : Hook unit :=
  let sortedChats := toSorted byLatestDesc chatsList in
  setChatSummaries sortedChats ;;
  setAreChatsLoading false ;;
  setAreChatsLoaded true.

Definition onListChatsError (error : string) : Hook unit :=
  console_error ["Error listing chats:"; error]%string.

(** *** Messages list *)

Definition emitListMessages (params : EmitListMessagesParams.t) : Hook unit :=
  setAreMessagesLoading true ;;
  emit (listMessages params).

(** [!chats[chatId]]: a stored [Chat] is an object, hence truthy. *)
Definition onMessagesList (chatId : string) (participants : list ChatUser.t)
    (messagesList : list ChatMessage.t) : Hook unit :=
  (if negb (present (chats !! chatId)) then
     setChats (<[chatId := Chat.mk chatId participants messagesList]> chats)
   else
     let newChats := <[chatId := Chat.mk chatId participants messagesList]> chats in
     setChats newChats) ;;
  setChatMessages messagesList ;;
  setAreMessagesLoading false.

(** *** Message sending and receiving *)

Definition emitSendMessage (params : EmitSendMessageParams.t) : Hook unit :=
  emit (sendMessage params).

(** The [forEach] loop of [emitReadMessages]: one [push] per message of
    somebody else that is not read yet. *)
Definition collectUnread (teacherId : string) (unreadMessages : list ChatMessage.t)
    : list string :=
  foldl (λ unreadMessageIds msg,
           if negb (String.eqb (ChatUser.userId (ChatMessage.sender msg)) teacherId)
              && negb (ChatMessage.isRead msg)
           then unreadMessageIds ++ [ChatMessage.messageId msg]
           else unreadMessageIds)
        [] unreadMessages.

(** The id [emitReadMessages] works with: [info.teacherID], or else the
    stored one, or else none. *)
Definition resolveTeacherId : option string :=
  if truthy (Info.teacherID info) then Info.teacherID info
  else
    let teacherId := getInfo tt ≫= Info.teacherID in
    if truthy teacherId then teacherId else None.

Definition emitReadMessages (params : EmitReadMessagesParams.t) : Hook unit :=
  let chatId := EmitReadMessagesParams.chatId params in
  let unreadMessages := EmitReadMessagesParams.unreadMessages params in
  (* what follows once [teacherId] is known *)
  let continue (teacherId : string) : Hook unit :=
    let unreadMessageIds := collectUnread teacherId unreadMessages in
    st ← get;
    match State.socketRef st with
    | None => console_error ["Socket not found"%string]
    | Some _ => emit (readMessages (ReadMessagesPayload.mk chatId unreadMessageIds))
    end in
  let teacherId := Info.teacherID info in
  if truthy teacherId then continue (the_string teacherId)
  else
    console_log ["No teacherID..."%string] ;;
    console_log ["Getting stored info..."%string] ;;
    let storedInfo := getInfo tt in
    let teacherId := storedInfo ≫= Info.teacherID in
    if truthy teacherId then continue (the_string teacherId)
    else console_error ["Sorry! No teacherID! Exiting..."%string].

Definition onMessageReceived (message : ChatMessage.t) : Hook unit := mret tt.
Definition onMessageRead (messageId : string) : Hook unit := mret tt.

Definition onNewMessage (incomingChat : Chat.t) : Hook unit :=
  let updatedChats := <[Chat.chatId incomingChat := incomingChat]> chats in
  setChats updatedChats ;;
  setChatMessages (Chat.messages incomingChat) ;;
  emit (receiveMessage (Chat.messages incomingChat !! 0%nat)).

(** *** The effect *)

Definition newSocket : Socket.t :=
  on "newMessage" (on "messageRead" (on "messageReceived" (on "messagesList"
    (on "listChatsError" (on "chatsList" (on "registerUserError"
      (on "userRegistered" (io "http://localhost:11114")))))))).

(** All four identity fields that registration needs are truthy. *)
Definition identityComplete : bool :=
  truthy (Info.teacherID info) && truthy (Info.preferredName info)
  && truthy (Info.firstName info) && truthy (Info.lastName info).

(** The argument of [emitRegisterUser] in the effect. *)
Definition registrationParams : EmitRegisterUserParams :=
  ChatUser.mk (the_string (Info.teacherID info)) "teacher"
    (the_string (Info.preferredName info))
    (the_string (Info.firstName info))
    (the_string (Info.lastName info))
    (or_default (Info.profilePictureURL info) "").

(** One run of the [useEffect] callback.  [isRegistered] is the value of
    the render, read before anything is set. *)
Definition effect : Hook unit :=
  render ← get;
  let isRegistered := State.isRegistered render in
  (if negb (present (State.socketRef render))
   then setSocketRef (Some newSocket) else mret tt) ;;
  st ← get;
  (if present (State.socketRef st) && negb isRegistered
      && identityComplete
   then emitRegisterUser registrationParams
   else mret tt) ;;
  st ← get;
  (if present (State.socketRef st) && isRegistered
      && truthy (Info.teacherID info)
   then emitListChats (EmitListChatsParams.mk (the_string (Info.teacherID info)))
   else mret tt).
End Render.

(** A message that a read receipt is due for: sent by somebody else and
    not read yet. *)
Definition unreadFromOthers (teacherId : string) (msg : ChatMessage.t) : Prop :=
  ChatUser.userId (ChatMessage.sender msg) ≠ teacherId
  ∧ ChatMessage.isRead msg = false.

Global Instance unreadFromOthers_dec teacherId msg :
  Decision (unreadFromOthers teacherId msg) := and_dec _ _.

(** The console lines of the fallback lookup. *)
Definition lookupLines (info : Info.t) : list Effect :=
  if truthy (Info.teacherID info) then []
  else [ConsoleLog ["No teacherID..."%string];
        ConsoleLog ["Getting stored info..."%string]].

(** How many of [infos] have a complete identity. *)
Definition completeCount (infos : list Info.t) : nat :=
  length (filter (λ info, identityComplete info = true) infos).

(** ** The hook over time *)

(** An inbound event reaches the listener that the first run of the
    effect installed for it.  Those listeners are the closures of the
    first render, whose [chats] is the initial, empty object. *)
Definition listener (e : InEvent) : Hook unit :=
  match e with
  | userRegistered userId => onUserRegistered userId
  | registerUserError error => onRegisterUserError error
  | chatsList l => onChatsList l
  | listChatsError error => onListChatsError error
  | messagesList chatId participants l =>
      onMessagesList (State.chats State.init) chatId participants l
  | messageReceived message => onMessageReceived message
  | messageRead messageId => onMessageRead messageId
  | newMessage incomingChat => onNewMessage (State.chats State.init) incomingChat
  end.

Definition deliver (e : InEvent) : Hook unit :=
  st ← get;
  match State.socketRef st with
  | Some s =>
      if bool_decide (event_name e ∈ Socket.listeners s) then listener e
      else mret tt
  | None => mret tt
  end.

(** What happens to the hook: a render whose dependencies changed (the
    effect runs with the new [info]), or an inbound event. *)
Inductive Step :=
  | Render (info : Info.t)
  | Receive (e : InEvent).

Definition step (s : Step) : Hook unit :=
  match s with
  | Render info => effect info
  | Receive e => deliver e
  end.

Fixpoint run (steps : list Step) : Hook unit :=
  match steps with
  | [] => mret tt
  | s :: steps' => step s ;; run steps'
  end.

(** Successive renders with nothing in between. *)
Definition renders (infos : list Info.t) : Hook unit := run (Render <$> infos).

(** How often the effects contain a [registerUser] emission. *)
Definition registrations (out : list Effect) : nat :=
  length (filter (λ x, is_registerUser x = true) out).

(** How often the identity goes from incomplete to complete along
    [infos], [prev] telling whether it was complete before. *)
Fixpoint completions (prev : bool) (infos : list Info.t) : nat :=
  match infos with
  | [] => 0
  | info :: infos' =>
      ((if negb prev && identityComplete info then 1 else 0)
       + completions (identityComplete info) infos')%nat
  end.

(** ** Sample data *)

Definition teacher1 : ChatUser.t := ChatUser.mk "t1" "teacher" "A" "B" "C" "".
Definition student2 : ChatUser.t := ChatUser.mk "t2" "student" "D" "E" "F" "".

Definition message (id : string) (sender : ChatUser.t) (at_ : Z) (isRead : bool)
    : ChatMessage.t :=
  ChatMessage.mk id "c1" sender "hello" at_ true isRead false.

Definition info1 : Info.t :=
  Info.mk (Some "t1") (Some "A") (Some "B") (Some "C") None.
Definition info1' : Info.t :=
  Info.mk (Some "t1") (Some "Al") (Some "B") (Some "C") None.
Definition noInfo : Info.t := Info.mk None None None None None.

Definition pushed1 : Chat.t :=
  Chat.mk "c1" [teacher1; student2]
    [message "m3" student2 30 false; message "m1" teacher1 10 true].

Definition stored1 : Chat.t :=
  Chat.mk "c1" [teacher1; student2]
    [message "m1" teacher1 10 true; message "m2" student2 20 true].

Definition summary (id : string) (t : Z) : ChatSummary.t :=
  ChatSummary.mk id [teacher1; student2] (message "m" student2 t false).

(** The state once the effect has run for [info1]: connected, a
    registration in flight. *)
Definition registering1 : State.t := state_of (effect info1 State.init).

(** ** Notions for the behaviour over time *)

(** The inbound events whose listeners only write to the console or do
    nothing: the two error events and the two unimplemented ones. *)
Definition inert (e : InEvent) : bool :=
  match e with
  | registerUserError _ | listChatsError _ | messageReceived _ | messageRead _ => true
  | _ => false
  end.

(** A store with no conversation, or with one, filed under its own id. *)
Definition atMostOneChat (chats : Chats) : Prop :=
  chats = ∅ ∨ ∃ c, chats = {[ Chat.chatId c := c ]}.

(** A fetch of a conversation as the hook sees it: the request, then the
    response of the server. *)
Definition fetch (chats : Chats) (params : EmitListMessagesParams.t)
    (participants : list ChatUser.t) (l : list ChatMessage.t) : Hook unit :=
  emitListMessages params ;;
  onMessagesList chats (EmitListMessagesParams.roomId params) participants l.

(** A refresh of the chat list: the request, then the response. *)
Definition refresh (params : EmitListChatsParams.t) (l : list ChatSummary.t)
    : Hook unit :=
  emitListChats params ;;
  onChatsList l.

(** ** First facts *)

Example registering1_in_flight :
  State.isRegistering registering1 = true ∧ State.isRegistered registering1 = false
  ∧ emissions (effects_of (effect info1 State.init)) = [registerUser teacher1].
Proof. vm_compute. done. Qed.

(** Unfolds the operations of the monad, leaving the state alone. *)
Ltac hook_unfold :=
  cbv [mbind hook_bind mret hook_ret get modify tell emit console_log
       console_error the_string default].

Lemma run_bind {A B} (m : Hook A) (f : A → Hook B) st :
  (m ≫= f) st =
  let '(a, st1, out1) := m st in
  let '(b, st2, out2) := f a st1 in (b, st2, out1 ++ out2).
Proof. reflexivity. Qed.

Lemma emit_connected e st s :
  State.socketRef st = Some s → emit e st = (tt, st, [Emit e]).
Proof. intros H. unfold emit. by rewrite H. Qed.

Lemma emit_unconnected e st :
  State.socketRef st = None → emit e st = (tt, st, []).
Proof. intros H. unfold emit. by rewrite H. Qed.

(** The socket that the effect makes listens to all eight events, so an
    inbound event runs its listener. *)
Lemma deliver_newSocket e st :
  State.socketRef st = Some newSocket → deliver e st = listener e st.
Proof.
  intros Hs. unfold deliver. hook_unfold. rewrite Hs.
  replace (bool_decide (event_name e ∈ Socket.listeners newSocket)) with true
    by (by destruct e).
  by destruct (listener e st) as [[[] st'] out].
Qed.

(** ** Sorting the summaries *)

Section ToSortedFacts.
Context {A : Type} (compareFn : A → A → Z).

Lemma sorted_insert_perm x l : sorted_insert compareFn x l ≡ₚ x :: l.
Proof.
  induction l as [|y l IH]; simpl; [done|].
  destruct (compareFn x y <=? 0); [done|].
  rewrite IH. apply perm_swap.
Qed.

Lemma toSorted_perm l : toSorted compareFn l ≡ₚ l.
Proof.
  induction l as [|x l IH]; simpl; [done|].
  rewrite sorted_insert_perm. by f_equiv.
Qed.
End ToSortedFacts.

Lemma sorted_insert_newestFirst x l :
  StronglySorted newestFirst l →
  StronglySorted newestFirst (sorted_insert byLatestDesc x l).
Proof.
  induction 1 as [|y l Hl IH Hy]; simpl.
  - repeat constructor.
  - destruct (Z.leb_spec (byLatestDesc x y) 0) as [Hle|Hgt].
    + constructor; [by constructor|].
      unfold byLatestDesc in Hle. fold (latest x) (latest y) in Hle.
      constructor; [unfold newestFirst; lia|].
      eapply Forall_impl; [exact Hy|]. unfold newestFirst. intros z Hz. simpl in *. lia.
    + constructor; [done|].
      rewrite sorted_insert_perm. constructor; [|done].
      unfold byLatestDesc in Hgt. fold (latest x) (latest y) in Hgt.
      unfold newestFirst. lia.
Qed.

Lemma toSorted_newestFirst l : StronglySorted newestFirst (toSorted byLatestDesc l).
Proof.
  induction l as [|x l IH]; simpl; [constructor|].
  by apply sorted_insert_newestFirst.
Qed.

Lemma sorted_insert_at_time t x l :
  at_time t (sorted_insert byLatestDesc x l) = at_time t (x :: l).
Proof.
  unfold at_time. induction l as [|y l IH]; simpl; [done|].
  destruct (Z.leb_spec (byLatestDesc x y) 0) as [Hle|Hgt]; [done|].
  unfold byLatestDesc in Hgt. fold (latest x) (latest y) in Hgt.
  rewrite (filter_cons _ y), IH, !filter_cons.
  repeat case_decide; try done; lia.
Qed.

Lemma toSorted_at_time t l : at_time t (toSorted byLatestDesc l) = at_time t l.
Proof.
  induction l as [|x l IH]; simpl; [done|].
  rewrite sorted_insert_at_time. unfold at_time in *.
  by rewrite !filter_cons, IH.
Qed.

(** Two lists, both newest first, with the same summaries in the same
    order at every timestamp, are the same list. *)
Lemma newestFirst_unique l1 l2 :
  StronglySorted newestFirst l1 → StronglySorted newestFirst l2 →
  (∀ t, at_time t l1 = at_time t l2) → l1 = l2.
Proof.
  intros H1. revert l2. induction H1 as [|a l1 Hl1 IH Ha]; intros l2 H2 Heq.
  - destruct l2 as [|b l2]; [done|].
    specialize (Heq (latest b)). unfold at_time in Heq.
    rewrite filter_cons in Heq. by case_decide.
  - destruct H2 as [|b l2 Hl2 Hb].
    { specialize (Heq (latest a)). unfold at_time in Heq.
      rewrite filter_cons in Heq. by case_decide. }
    assert (latest a = latest b) as Hab.
    { assert (a ∈ b :: l2) as Ha2.
      { pose proof (Heq (latest a)) as E. unfold at_time in E.
        assert (a ∈ filter (λ x, latest x = latest a) (a :: l1)) as Hin
          by (apply list_elem_of_filter; split; [done|left]).
        rewrite E in Hin. by apply list_elem_of_filter in Hin as [_ ?]. }
      assert (b ∈ a :: l1) as Hb1.
      { pose proof (Heq (latest b)) as E. unfold at_time in E.
        assert (b ∈ filter (λ x, latest x = latest b) (b :: l2)) as Hin
          by (apply list_elem_of_filter; split; [done|left]).
        rewrite <- E in Hin. by apply list_elem_of_filter in Hin as [_ ?]. }
      rewrite Forall_forall in Ha, Hb. unfold newestFirst in Ha, Hb.
      apply elem_of_cons in Ha2 as [->|Ha2]; [done|].
      apply elem_of_cons in Hb1 as [->|Hb1]; [done|].
      specialize (Ha _ Hb1). specialize (Hb _ Ha2). lia. }
    assert (a = b) as ->.
    { specialize (Heq (latest a)). unfold at_time in Heq.
      rewrite !filter_cons in Heq. rewrite !decide_True in Heq by done.
      congruence. }
    f_equal. apply IH; [done|]. intros t.
    specialize (Heq t). unfold at_time in *. rewrite !filter_cons in Heq.
    case_decide; congruence.
Qed.

(** Whatever stable sort the engine runs, [toSorted] with this comparator
    returns the list of the model. *)
Lemma toSorted_unique l l' :
  StronglySorted newestFirst l' → (∀ t, at_time t l' = at_time t l) →
  l' = toSorted byLatestDesc l.
Proof.
  intros Hs Heq. apply newestFirst_unique; [done|apply toSorted_newestFirst|].
  intros t. by rewrite toSorted_at_time.
Qed.

(** ** The chat directory *)

(** C1: whatever list of summaries arrives as [chatsList], the list that
    [onChatsList] stores has the same summaries, latest message first
    (descending [latestMessage.timestamp]), and the summaries of any one
    timestamp are in the order in which the server sent them. *)
Theorem onChatsList_sorted_stable (l : list ChatSummary.t) (st : State.t) :
  let stored := State.chatSummaries (state_of (onChatsList l st)) in
  StronglySorted newestFirst stored
  ∧ stored ≡ₚ l
  ∧ ∀ t, at_time t stored = at_time t l.
Proof.
  change (State.chatSummaries (state_of (onChatsList l st)))
    with (toSorted byLatestDesc l). simpl.
  split; [apply toSorted_newestFirst|].
  split; [apply toSorted_perm|]. intros t. apply toSorted_at_time.
Qed.

Example onChatsList_sample :
  let s (id : string) (t : Z) :=
    ChatSummary.mk id [] (message "m" student2 t false) in
  ChatSummary.chatId <$>
    State.chatSummaries
      (state_of (onChatsList [s "a" 5; s "b" 9; s "c" 5; s "d" 7; s "e" 9]
                   State.init))
  = ["b"; "e"; "d"; "a"; "c"]%string.
Proof. vm_compute. reflexivity. Qed.

Lemma onChatsList_run l st :
  onChatsList l st =
  (tt,
   State.set_areChatsLoaded true
     (State.set_areChatsLoading false
        (State.set_chatSummaries (toSorted byLatestDesc l) st)),
   []).
Proof. reflexivity. Qed.

(** ** The conversation store *)

Lemma onNewMessage_run chats incomingChat st s :
  State.socketRef st = Some s →
  onNewMessage chats incomingChat st =
  (tt,
   State.set_chatMessages (Chat.messages incomingChat)
     (State.set_chats (<[Chat.chatId incomingChat := incomingChat]> chats) st),
   [Emit (receiveMessage (Chat.messages incomingChat !! 0%nat))]).
Proof.
  intros Hs. unfold onNewMessage, setChats, setChatMessages.
  hook_unfold. simpl. by rewrite Hs.
Qed.

Lemma onMessagesList_run chats chatId participants l st :
  onMessagesList chats chatId participants l st =
  (tt,
   State.set_areMessagesLoading false
     (State.set_chatMessages l
        (State.set_chats (<[chatId := Chat.mk chatId participants l]> chats) st)),
   []).
Proof. unfold onMessagesList. by destruct (present _). Qed.

(** C2: a pushed conversation ends up in the store under its id, as it
    was pushed, whether or not the store had an entry for that id (so the
    participants and messages of an old entry are gone); the other
    entries are those of the object the handler spreads; and the handler
    emits exactly one [receiveMessage], carrying [messages[0]] of the push,
    which is the first message whenever there is one. *)
Theorem onNewMessage_replaces_and_acks
    (chats : Chats) (incomingChat : Chat.t) (st : State.t) (s : Socket.t) :
  State.socketRef st = Some s →
  let r := onNewMessage chats incomingChat st in
  State.chats (state_of r) !! Chat.chatId incomingChat = Some incomingChat
  ∧ (∀ id, id ≠ Chat.chatId incomingChat →
           State.chats (state_of r) !! id = chats !! id)
  ∧ effects_of r = [Emit (receiveMessage (head (Chat.messages incomingChat)))]
  ∧ (∀ m rest, Chat.messages incomingChat = m :: rest →
               emissions (effects_of r) = [receiveMessage (Some m)]).
Proof.
  intros Hs r. subst r. rewrite (onNewMessage_run _ _ _ _ Hs).
  unfold state_of, effects_of. simpl.
  split; [apply lookup_insert_eq|].
  split; [intros id Hid; by apply lookup_insert_ne|].
  split; [by destruct (Chat.messages incomingChat)|].
  intros m rest ->. reflexivity.
Qed.

Lemma onNewMessage_replaces_and_acks_witness :
  let r := onNewMessage {[ "c1"%string := stored1 ]} pushed1 registering1 in
  State.socketRef registering1 = Some newSocket
  ∧ State.chats (state_of r) !! "c1"%string = Some pushed1
  ∧ emissions (effects_of r) = [receiveMessage (Some (message "m3" student2 30 false))].
Proof.
  destruct (onNewMessage_replaces_and_acks {[ "c1"%string := stored1 ]} pushed1
              registering1 newSocket eq_refl) as (H1 & _ & _ & H4).
  split; [reflexivity|]. split; [exact H1|]. exact (H4 _ _ eq_refl).
Defined.

(** C10: for a push whose [messages] is empty, [messages[0]] is
    [undefined]; the handler emits [receiveMessage] all the same, with that
    payload, and the displayed message list becomes empty. *)
Theorem onNewMessage_empty_push
    (chats : Chats) (incomingChat : Chat.t) (st : State.t) (s : Socket.t) :
  Chat.messages incomingChat = [] →
  State.socketRef st = Some s →
  let r := onNewMessage chats incomingChat st in
  Chat.messages incomingChat !! 0%nat = None
  ∧ effects_of r = [Emit (receiveMessage None)]
  ∧ State.chatMessages (state_of r) = [].
Proof.
  intros Hm Hs r. subst r. rewrite (onNewMessage_run _ _ _ _ Hs).
  unfold state_of, effects_of. simpl. by rewrite Hm.
Qed.

Lemma onNewMessage_empty_push_witness :
  let r := onNewMessage ∅ (Chat.mk "c1" [teacher1; student2] []) registering1 in
  State.socketRef registering1 = Some newSocket
  ∧ effects_of r = [Emit (receiveMessage None)]
  ∧ State.chatMessages (state_of r) = [].
Proof.
  destruct (onNewMessage_empty_push ∅ (Chat.mk "c1" [teacher1; student2] [])
              registering1 newSocket eq_refl eq_refl) as (_ & H2 & H3).
  split; [reflexivity|]. split; [exact H2 | exact H3].
Defined.

(** C7: handling the same [messagesList] response a second time changes
    nothing.  The conversation stored under its id is the same after the
    second run as after the first, whatever [chats] objects the two runs
    spread; and the whole state is the same when the second run spreads
    what the first one did (the listener of the socket) or what the first
    one stored (a closure of the next render). *)
Theorem onMessagesList_idempotent
    (chats1 chats2 : Chats) (chatId : string) (participants : list ChatUser.t)
    (l : list ChatMessage.t) (st : State.t) :
  let once := state_of (onMessagesList chats1 chatId participants l st) in
  let twice c := state_of (onMessagesList c chatId participants l once) in
  State.chats (twice chats2) !! chatId = State.chats once !! chatId
  ∧ State.chats once !! chatId = Some (Chat.mk chatId participants l)
  ∧ twice chats1 = once
  ∧ twice (State.chats once) = once.
Proof.
  simpl. rewrite !onMessagesList_run. unfold state_of. simpl.
  rewrite !lookup_insert_eq. repeat split; try done.
  by rewrite insert_insert_eq.
Qed.

(** The listener of the socket spreads the [chats] of the first render:
    a push for a second conversation leaves only that one in the store. *)
Example deliver_newMessage_sample :
  let other := Chat.mk "c2" [teacher1; student2] [message "m9" student2 90 false] in
  let st := state_of (run [Receive (newMessage pushed1); Receive (newMessage other)]
                        registering1) in
  State.chats st !! "c2"%string = Some other ∧ State.chats st !! "c1"%string = None.
Proof. split; vm_compute; reflexivity. Qed.

Example onMessagesList_twice_sample :
  let once := state_of (deliver (messagesList "c1" [teacher1; student2]
                                   (Chat.messages pushed1)) registering1) in
  state_of (deliver (messagesList "c1" [teacher1; student2]
                       (Chat.messages pushed1)) once) = once
  ∧ State.chats once !! "c1"%string
    = Some (Chat.mk "c1" [teacher1; student2] (Chat.messages pushed1)).
Proof. split; vm_compute; reflexivity. Qed.

(** ** The message dispatcher *)

Lemma collectUnread_filter teacherId l :
  collectUnread teacherId l
  = ChatMessage.messageId <$> filter (unreadFromOthers teacherId) l.
Proof.
  unfold collectUnread.
  set (push := λ (unreadMessageIds : list string) (msg : ChatMessage.t), _).
  enough (∀ acc, foldl push acc l
    = acc ++ (ChatMessage.messageId <$> filter (unreadFromOthers teacherId) l))
    as H by apply (H []).
  induction l as [|msg l IH]; intros acc; simpl.
  - by rewrite app_nil_r.
  - rewrite IH, filter_cons. unfold push at 1.
    destruct (String.eqb_spec (ChatUser.userId (ChatMessage.sender msg)) teacherId)
      as [Heq|Hne]; simpl.
    + rewrite decide_False; [done|]. by intros [? _].
    + destruct (ChatMessage.isRead msg) eqn:Hread; simpl.
      * rewrite decide_False; [done|]. intros [_ ?]. congruence.
      * rewrite decide_True by done. simpl. by rewrite <- app_assoc.
Qed.

Lemma emitReadMessages_run info getInfo params st :
  emitReadMessages info getInfo params st =
  (tt, st,
   lookupLines info ++
   match resolveTeacherId info getInfo with
   | None => [ConsoleError ["Sorry! No teacherID! Exiting..."%string]]
   | Some teacherId =>
       match State.socketRef st with
       | None => [ConsoleError ["Socket not found"%string]]
       | Some _ =>
           [Emit (readMessages
              (ReadMessagesPayload.mk (EmitReadMessagesParams.chatId params)
                 (collectUnread teacherId
                    (EmitReadMessagesParams.unreadMessages params))))]
       end
   end).
Proof.
  unfold emitReadMessages, resolveTeacherId, lookupLines.
  destruct (truthy (Info.teacherID info)) eqn:Ht.
  - destruct (Info.teacherID info) as [teacherId|]; [|done].
    destruct (State.socketRef st) eqn:Hs; hook_unfold; by rewrite ?Hs.
  - destruct (truthy (getInfo () ≫= Info.teacherID)) eqn:Ht'; [|done].
    destruct (getInfo () ≫= Info.teacherID) as [teacherId|]; [|done].
    destruct (State.socketRef st) eqn:Hs; hook_unfold; by rewrite ?Hs.
Qed.

(** C3: when the teacher's id can be found (in [info] or in the stored
    info) and the socket exists, [emitReadMessages] emits exactly one
    event, [readMessages], whose [roomId] is the given chat id and whose
    [unreadMessages] are the ids of the candidates that somebody else sent
    and that are not read, in the order of the candidates; the state is
    left as it was. *)
Theorem emitReadMessages_emits_unread
    (info : Info.t) (getInfo : unit → option Info.t)
    (params : EmitReadMessagesParams.t) (st : State.t)
    (teacherId : string) (s : Socket.t) :
  resolveTeacherId info getInfo = Some teacherId →
  State.socketRef st = Some s →
  let r := emitReadMessages info getInfo params st in
  emissions (effects_of r) =
    [readMessages
       (ReadMessagesPayload.mk (EmitReadMessagesParams.chatId params)
          (ChatMessage.messageId <$>
             filter (unreadFromOthers teacherId)
               (EmitReadMessagesParams.unreadMessages params)))]
  ∧ state_of r = st.
Proof.
  intros Hid Hs r. subst r. rewrite emitReadMessages_run, Hid, Hs.
  unfold effects_of, state_of. simpl. split; [|done].
  rewrite collectUnread_filter. unfold lookupLines. by destruct (truthy _).
Qed.

(** The example of the specification: teacher "t1", one own unread
    message, one unread and one read message of "t2". *)
Lemma emitReadMessages_emits_unread_witness :
  resolveTeacherId info1 (λ _, None) = Some "t1"%string
  ∧ emissions (effects_of
      (emitReadMessages info1 (λ _, None)
         (EmitReadMessagesParams.mk "c1"
            [message "m1" teacher1 10 false; message "m2" student2 20 false;
             message "m3" student2 30 true])
         registering1))
    = [readMessages (ReadMessagesPayload.mk "c1" ["m2"%string])].
Proof.
  split; [reflexivity|].
  exact (proj1 (emitReadMessages_emits_unread info1 (λ _, None)
    (EmitReadMessagesParams.mk "c1"
       [message "m1" teacher1 10 false; message "m2" student2 20 false;
        message "m3" student2 30 true])
    registering1 "t1" newSocket eq_refl eq_refl)).
Defined.

(** C8: when neither [info] nor the stored info has a teacher id,
    [emitReadMessages] emits nothing, reports the failure with
    [console.error] (after the two lines of the lookup), and leaves the
    state as it was. *)
Theorem emitReadMessages_no_teacher
    (info : Info.t) (getInfo : unit → option Info.t)
    (params : EmitReadMessagesParams.t) (st : State.t) :
  resolveTeacherId info getInfo = None →
  let r := emitReadMessages info getInfo params st in
  emissions (effects_of r) = []
  ∧ effects_of r =
      [ConsoleLog ["No teacherID..."%string];
       ConsoleLog ["Getting stored info..."%string];
       ConsoleError ["Sorry! No teacherID! Exiting..."%string]]
  ∧ state_of r = st.
Proof.
  intros Hid r. subst r. rewrite emitReadMessages_run, Hid.
  unfold effects_of, state_of, lookupLines. simpl.
  unfold resolveTeacherId in Hid.
  destruct (truthy (Info.teacherID info)) eqn:Ht; [|done].
  rewrite Hid in Ht. done.
Qed.

Lemma emitReadMessages_no_teacher_witness :
  resolveTeacherId noInfo (λ _, Some (Info.mk (Some "") None None None None)) = None
  ∧ emissions (effects_of
      (emitReadMessages noInfo (λ _, Some (Info.mk (Some "") None None None None))
         (EmitReadMessagesParams.mk "c1" [message "m2" student2 20 false])
         registering1)) = [].
Proof.
  split; [reflexivity|].
  exact (proj1 (emitReadMessages_no_teacher noInfo
    (λ _, Some (Info.mk (Some "") None None None None))
    (EmitReadMessagesParams.mk "c1" [message "m2" student2 20 false])
    registering1 eq_refl)).
Defined.

(** ** Registration *)

Lemma onUserRegistered_run userId st :
  onUserRegistered userId st =
  (tt,
   State.set_areChatsLoaded false
     (State.set_areChatsLoading true
        (State.set_isRegistered true (State.set_isRegistering false st))),
   match State.socketRef st with
   | Some _ => [Emit (listChatRooms (EmitListChatsParams.mk userId))]
   | None => []
   end).
Proof.
  unfold onUserRegistered, emitListChats, setIsRegistering, setIsRegistered,
    setAreChatsLoading, setAreChatsLoaded.
  hook_unfold. simpl. by destruct (State.socketRef st).
Qed.

(** C5: on [userRegistered] for a user id, the handler sets
    [isRegistering] to false and [isRegistered] to true and emits exactly
    one event, [listChatRooms] for that user id. *)
Theorem onUserRegistered_lists_chats (userId : string) (st : State.t) (s : Socket.t) :
  State.socketRef st = Some s →
  let r := onUserRegistered userId st in
  State.isRegistering (state_of r) = false
  ∧ State.isRegistered (state_of r) = true
  ∧ effects_of r = [Emit (listChatRooms (EmitListChatsParams.mk userId))].
Proof.
  intros Hs r. subst r. rewrite onUserRegistered_run, Hs. done.
Qed.

Lemma onUserRegistered_lists_chats_witness :
  State.socketRef registering1 = Some newSocket
  ∧ effects_of (deliver (userRegistered "t1") registering1)
    = [Emit (listChatRooms (EmitListChatsParams.mk "t1"))].
Proof.
  split; [reflexivity|].
  exact (proj2 (proj2
    (onUserRegistered_lists_chats "t1" registering1 newSocket eq_refl))).
Defined.

Lemma onRegisterUserError_run error st :
  onRegisterUserError error st
  = (tt, st, [ConsoleError ["Error registering user:"%string; error]]).
Proof. reflexivity. Qed.

(** C4: [onRegisterUserError] only writes to the console.  With a
    registration in flight ([isRegistering] true after the effect ran for a
    complete identity), a [registerUserError] leaves the state as it is,
    and [isRegistering] is still true afterwards. *)
Theorem onRegisterUserError_keeps_isRegistering :
  (∀ error st, state_of (onRegisterUserError error st) = st)
  ∧ State.isRegistering registering1 = true
  ∧ State.isRegistering
      (state_of (deliver (registerUserError "timeout") registering1)) = true
  ∧ State.isRegistered
      (state_of (deliver (registerUserError "timeout") registering1)) = false.
Proof. repeat split. Qed.

(** ** Operations without a socket *)

Lemma emitRegisterUser_run params st :
  emitRegisterUser params st =
  (tt, State.set_isRegistering true st,
   match State.socketRef st with
   | Some _ => [Emit (registerUser params)]
   | None => []
   end).
Proof.
  unfold emitRegisterUser, setIsRegistering. hook_unfold. simpl.
  by destruct (State.socketRef st).
Qed.

Lemma emitListChats_run params st :
  emitListChats params st =
  (tt, State.set_areChatsLoaded false (State.set_areChatsLoading true st),
   match State.socketRef st with
   | Some _ => [Emit (listChatRooms params)]
   | None => []
   end).
Proof.
  unfold emitListChats, setAreChatsLoading, setAreChatsLoaded. hook_unfold.
  simpl. by destruct (State.socketRef st).
Qed.

Lemma emitListMessages_run params st :
  emitListMessages params st =
  (tt, State.set_areMessagesLoading true st,
   match State.socketRef st with
   | Some _ => [Emit (listMessages params)]
   | None => []
   end).
Proof.
  unfold emitListMessages, setAreMessagesLoading. hook_unfold. simpl.
  by destruct (State.socketRef st).
Qed.

(** C9, as the code has it: without a socket none of the five operations
    emits anything, and each of them returns.  [emitSendMessage] does
    nothing at all; [emitRegisterUser], [emitListChats] and
    [emitListMessages] print nothing and still set their flags;
    [emitReadMessages] leaves the state alone and ends with one
    [console.error] line (after the lines of the id lookup, if any). *)
Theorem emit_without_socket (st : State.t) :
  State.socketRef st = None →
  (∀ params, emitRegisterUser params st
             = (tt, State.set_isRegistering true st, []))
  ∧ (∀ params, emitListChats params st
               = (tt, State.set_areChatsLoaded false
                        (State.set_areChatsLoading true st), []))
  ∧ (∀ params, emitListMessages params st
               = (tt, State.set_areMessagesLoading true st, []))
  ∧ (∀ params, emitSendMessage params st = (tt, st, []))
  ∧ (∀ info getInfo params,
       let r := emitReadMessages info getInfo params st in
       state_of r = st
       ∧ emissions (effects_of r) = []
       ∧ ∃ line, effects_of r = lookupLines info ++ [ConsoleError [line]]).
Proof.
  intros Hs.
  split; [intros; by rewrite emitRegisterUser_run, Hs|].
  split; [intros; by rewrite emitListChats_run, Hs|].
  split; [intros; by rewrite emitListMessages_run, Hs|].
  split; [intros; unfold emitSendMessage; by apply emit_unconnected|].
  intros info getInfo params r. subst r.
  rewrite emitReadMessages_run, Hs. unfold state_of, effects_of. simpl.
  split; [done|].
  assert (emissions (lookupLines info) = []) as Hl
    by (unfold lookupLines; by destruct (truthy _)).
  unfold emissions in *. rewrite omap_app, Hl.
  destruct (resolveTeacherId info getInfo); eauto.
Qed.

Lemma emit_without_socket_witness :
  State.socketRef State.init = None
  ∧ emitRegisterUser teacher1 State.init
    = (tt, State.set_isRegistering true State.init, [])
  ∧ emitSendMessage (EmitSendMessageParams.mk "c1" teacher1 "hello" 10) State.init
    = (tt, State.init, []).
Proof.
  destruct (emit_without_socket State.init eq_refl) as (H1 & _ & _ & H4 & _).
  split; [reflexivity|]. split; [apply H1 | apply H4].
Defined.

(** C9, as the specification has it, fails for [emitRegisterUser]: without
    a socket it prints no error, and it is not a no-op, as it sets
    [isRegistering]. *)
Lemma emitRegisterUser_without_socket_not_noop :
  ¬ (∀ params st, State.socketRef st = None →
       ∃ x, x ∈ effects_of (emitRegisterUser params st)
            ∧ is_console_error x = true)
  ∧ State.socketRef State.init = None
  ∧ state_of (emitRegisterUser teacher1 State.init) ≠ State.init.
Proof.
  split; [|split; [reflexivity|]].
  - intros H. destruct (H teacher1 State.init eq_refl) as (x & Hx & _).
    vm_compute in Hx. by apply elem_of_nil in Hx.
  - intros H. apply (f_equal State.isRegistering) in H. discriminate H.
Qed.

(** ** The registration effect *)

Lemma registrations_app out1 out2 :
  registrations (out1 ++ out2) = (registrations out1 + registrations out2)%nat.
Proof. unfold registrations. by rewrite filter_app, length_app. Qed.

(** What one run of the effect does: it makes the socket if there is
    none, then registers if the render was unregistered with a complete
    identity, or lists the chats if the render was registered with a
    teacher id. *)
Lemma effect_run info st :
  let connected :=
    if present (State.socketRef st) then st
    else State.set_socketRef (Some newSocket) st in
  effect info st =
  if State.isRegistered st then
    if truthy (Info.teacherID info) then
      (tt, State.set_areChatsLoaded false (State.set_areChatsLoading true connected),
       [Emit (listChatRooms
                (EmitListChatsParams.mk (the_string (Info.teacherID info))))])
    else (tt, connected, [])
  else
    if identityComplete info then
      (tt, State.set_isRegistering true connected,
       [Emit (registerUser (registrationParams info))])
    else (tt, connected, []).
Proof.
  unfold effect, emitRegisterUser, emitListChats, setSocketRef, setIsRegistering,
    setAreChatsLoading, setAreChatsLoaded.
  generalize (identityComplete info) (truthy (Info.teacherID info)).
  intros complete hasId.
  destruct st as [[s|] ? [] ? ? ? ? ? ? ?], complete, hasId; reflexivity.
Qed.

Lemma effect_isRegistered info st :
  State.isRegistered (state_of (effect info st)) = State.isRegistered st.
Proof.
  pose proof (effect_run info st) as H. simpl in H. rewrite H.
  destruct (State.isRegistered st) eqn:Hr;
    repeat (case_match; simpl; try done).
Qed.

Lemma effect_registrations info st :
  filter (λ x, is_registerUser x = true) (effects_of (effect info st))
  = if negb (State.isRegistered st) && identityComplete info
    then [Emit (registerUser (registrationParams info))] else [].
Proof.
  pose proof (effect_run info st) as H. simpl in H. rewrite H.
  destruct (State.isRegistered st); simpl; by repeat case_match.
Qed.

Lemma renders_cons info infos st :
  renders (info :: infos) st =
  let '(_, st1, out1) := effect info st in
  let '(_, st2, out2) := renders infos st1 in (tt, st2, out1 ++ out2).
Proof.
  unfold renders. rewrite fmap_cons. simpl run. rewrite run_bind. simpl step.
  destruct (effect info st) as [[[] st1] out1].
  by destruct (run _ st1) as [[[] st2] out2].
Qed.

Lemma renders_registrations infos st :
  registrations (effects_of (renders infos st))
  = if State.isRegistered st then 0%nat else completeCount infos.
Proof.
  revert st. induction infos as [|info infos IH]; intros st.
  - by destruct (State.isRegistered st).
  - rewrite renders_cons.
    pose proof (effect_isRegistered info st) as Hreg.
    pose proof (effect_registrations info st) as Hout.
    destruct (effect info st) as [[[] st1] out1].
    specialize (IH st1).
    destruct (renders infos st1) as [[[] st2] out2].
    unfold effects_of, state_of in *. simpl in *.
    rewrite registrations_app, IH, Hreg. unfold registrations at 1.
    rewrite Hout. unfold completeCount. rewrite filter_cons.
    destruct (State.isRegistered st); simpl; [done|].
    by destruct (identityComplete info).
Qed.

(** C6, as the code has it: a run of the effect emits [registerUser]
    exactly once when the render is unregistered and the four identity
    fields are non-empty, and not at all otherwise; the effect does not
    touch [isRegistered]; so over successive renders nothing is registered
    once [isRegistered] is true, and while it is false there is one
    [registerUser] for every render with a complete identity. *)
Theorem effect_registers_while_unregistered
    (info : Info.t) (infos : list Info.t) (st : State.t) :
  let r := effect info st in
  filter (λ x, is_registerUser x = true) (effects_of r)
    = (if negb (State.isRegistered st) && identityComplete info
       then [Emit (registerUser (registrationParams info))] else [])
  ∧ State.isRegistered (state_of r) = State.isRegistered st
  ∧ registrations (effects_of (renders infos st))
    = if State.isRegistered st then 0%nat else completeCount infos.
Proof.
  split; [apply effect_registrations|].
  split; [apply effect_isRegistered | apply renders_registrations].
Qed.

(** C6, as the specification has it, fails: the identity becomes
    complete once (first render), the preferred name then changes while
    the registration is in flight, and [registerUser] is emitted twice. *)
Lemma registerUser_twice_per_completion :
  ¬ (∀ infos, (registrations (effects_of (renders infos State.init))
               ≤ completions false infos)%nat).
Proof.
  intros H. specialize (H [info1; info1']). vm_compute in H. lia.
Qed.

Example registerUser_twice_sample :
  emissions (effects_of (renders [info1; info1'] State.init))
  = [registerUser teacher1;
     registerUser (ChatUser.mk "t1" "teacher" "Al" "B" "C" "")]
  ∧ completions false [info1; info1'] = 1%nat.
Proof. split; vm_compute; reflexivity. Qed.

Example registered_no_registerUser_sample :
  let registered := state_of (deliver (userRegistered "t1") registering1) in
  emissions (effects_of (renders [info1'; info1] registered))
  = [listChatRooms (EmitListChatsParams.mk "t1");
     listChatRooms (EmitListChatsParams.mk "t1")].
Proof. vm_compute. reflexivity. Qed.

(** A whole session: the identity arrives, the server confirms the
    registration, and the effect runs again because [isRegistered]
    changed.  The chats are listed by the listener and once more by the
    effect. *)
Example session_sample :
  emissions (effects_of
    (run [Render noInfo; Render info1; Receive (userRegistered "t1"); Render info1]
       State.init))
  = [registerUser teacher1;
     listChatRooms (EmitListChatsParams.mk "t1");
     listChatRooms (EmitListChatsParams.mk "t1")].
Proof. vm_compute. reflexivity. Qed.

(** ** More of the hook: steps and runs *)

Lemma run_cons s steps st :
  run (s :: steps) st =
  let '(_, st1, out1) := step s st in
  let '(_, st2, out2) := run steps st1 in (tt, st2, out1 ++ out2).
Proof.
  simpl run. rewrite run_bind.
  destruct (step s st) as [[[] st1] out1].
  by destruct (run steps st1) as [[[] st2] out2].
Qed.

(** A property of the state that every step keeps, and a property of the
    effects that every step from such a state has, hold along a run. *)
Lemma run_invariant (P : State.t → Prop) (Q : Effect → Prop) :
  (∀ s st, P st → P (state_of (step s st)) ∧ Forall Q (effects_of (step s st))) →
  ∀ steps st, P st →
    P (state_of (run steps st)) ∧ Forall Q (effects_of (run steps st)).
Proof.
  intros Hstep steps. induction steps as [|s steps IH]; intros st HP.
  - split; [done | constructor].
  - rewrite run_cons. destruct (Hstep s st HP) as [HP1 HQ1].
    destruct (step s st) as [[[] st1] out1].
    destruct (IH st1 HP1) as [HP2 HQ2].
    destruct (run steps st1) as [[[] st2] out2].
    unfold state_of, effects_of in *. simpl in *.
    split; [done | by apply Forall_app].
Qed.

Lemma deliver_run e st :
  deliver e st =
  match State.socketRef st with
  | Some s =>
      if bool_decide (event_name e ∈ Socket.listeners s) then listener e st
      else (tt, st, [])
  | None => (tt, st, [])
  end.
Proof.
  unfold deliver. hook_unfold.
  destruct (State.socketRef st) as [s|]; [|done].
  destruct (bool_decide _); [|done].
  by destruct (listener e st) as [[[] st'] out].
Qed.

(** What a listener does to the state and to the outside, event by event. *)
Lemma listener_run e st :
  listener e st =
  match e with
  | userRegistered userId => onUserRegistered userId st
  | chatsList l => onChatsList l st
  | messagesList chatId participants l =>
      (tt, State.set_areMessagesLoading false
             (State.set_chatMessages l
                (State.set_chats {[ chatId := Chat.mk chatId participants l ]} st)),
       [])
  | newMessage incomingChat =>
      (tt, State.set_chatMessages (Chat.messages incomingChat)
             (State.set_chats {[ Chat.chatId incomingChat := incomingChat ]} st),
       match State.socketRef st with
       | Some _ => [Emit (receiveMessage (Chat.messages incomingChat !! 0%nat))]
       | None => []
       end)
  | registerUserError error =>
      (tt, st, [ConsoleError ["Error registering user:"%string; error]])
  | listChatsError error =>
      (tt, st, [ConsoleError ["Error listing chats:"%string; error]])
  | messageReceived _ | messageRead _ => (tt, st, [])
  end.
Proof.
  destruct e; try reflexivity.
  unfold listener. change (State.chats State.init) with (∅ : Chats).
  unfold onNewMessage, setChats, setChatMessages. hook_unfold.
  rewrite insert_empty. simpl. by destruct (State.socketRef st).
Qed.

(** Reduces a step to the run of its handler. *)
Ltac step_cases s st :=
  destruct s as [info|e]; simpl step;
  [ let H := fresh in
    pose proof (effect_run info st) as H; simpl in H; rewrite H; clear H;
    destruct (State.isRegistered st) eqn:?;
    [destruct (truthy (Info.teacherID info)) eqn:?
    |destruct (identityComplete info) eqn:?];
    destruct (present (State.socketRef st)) eqn:?
  | rewrite deliver_run;
    destruct (State.socketRef st) as [?sock|] eqn:?;
    [destruct (bool_decide _);
     [rewrite listener_run; destruct e;
      rewrite ?onUserRegistered_run, ?onChatsList_run|]|] ];
  unfold state_of, effects_of; simpl.

Lemma step_socketRef s st sock :
  State.socketRef st = Some sock →
  State.socketRef (state_of (step s st)) = Some sock.
Proof. intros Hs. step_cases s st; try done; by rewrite Hs in *. Qed.

Lemma step_isRegistered s st :
  State.isRegistered st = true →
  State.isRegistered (state_of (step s st)) = true
  ∧ Forall (λ x, is_registerUser x = false) (effects_of (step s st)).
Proof.
  intros Hr. step_cases s st; try congruence;
    (split; [done|]); try case_match; by repeat constructor.
Qed.

Lemma step_atMostOneChat s st :
  atMostOneChat (State.chats st) → atMostOneChat (State.chats (state_of (step s st))).
Proof.
  intros Hc. step_cases s st; try done; right.
  - by eexists (Chat.mk _ _ _).
  - by eexists.
Qed.

Lemma step_emits_at_most_one s st :
  (length (emissions (effects_of (step s st))) ≤ 1)%nat.
Proof. step_cases s st; try lia; by case_match; simpl; lia. Qed.

(** ** More of the chat directory *)

Lemma toSorted_sorted_id l :
  StronglySorted newestFirst l → toSorted byLatestDesc l = l.
Proof. intros Hl. symmetry. by apply toSorted_unique. Qed.

(** X1: a list that the server already sends latest message first is
    stored as it is. *)
Theorem onChatsList_keeps_sorted_input (l : list ChatSummary.t) (st : State.t) :
  StronglySorted newestFirst l →
  State.chatSummaries (state_of (onChatsList l st)) = l.
Proof. intros Hl. rewrite onChatsList_run. by apply toSorted_sorted_id. Qed.

Lemma onChatsList_keeps_sorted_input_witness :
  StronglySorted newestFirst [summary "b" 9; summary "e" 9; summary "a" 5]
  ∧ State.chatSummaries
      (state_of (onChatsList [summary "b" 9; summary "e" 9; summary "a" 5]
                   State.init))
    = [summary "b" 9; summary "e" 9; summary "a" 5].
Proof.
  assert (StronglySorted newestFirst
            [summary "b" 9; summary "e" 9; summary "a" 5]) as Hs.
  { repeat constructor; unfold newestFirst; vm_compute; discriminate. }
  split; [exact Hs|]. exact (onChatsList_keeps_sorted_input _ State.init Hs).
Defined.

(** X2: the stored summaries depend on the last response only, not on
    what was held before, and handling the stored list once more as a
    response changes nothing. *)
Theorem onChatsList_last_wins_idempotent
    (l1 l2 : list ChatSummary.t) (st : State.t) :
  let st2 := state_of (onChatsList l2 (state_of (onChatsList l1 st))) in
  st2 = state_of (onChatsList l2 st)
  ∧ state_of (onChatsList (State.chatSummaries st2) st2) = st2.
Proof.
  simpl. rewrite !onChatsList_run. unfold state_of. simpl.
  split; [done|]. by rewrite toSorted_sorted_id by apply toSorted_newestFirst.
Qed.

(** X3: a refresh that is answered leaves the state that the answer
    alone would leave (the loading flags set by the request are
    overwritten: not loading, loaded), and its only effect is the one
    [listChatRooms] request. *)
Theorem refresh_round_trip
    (params : EmitListChatsParams.t) (l : list ChatSummary.t)
    (st : State.t) (s : Socket.t) :
  State.socketRef st = Some s →
  let r := refresh params l st in
  state_of r = state_of (onChatsList l st)
  ∧ State.areChatsLoading (state_of r) = false
  ∧ State.areChatsLoaded (state_of r) = true
  ∧ effects_of r = [Emit (listChatRooms params)].
Proof.
  intros Hs. unfold refresh. rewrite run_bind, emitListChats_run, Hs.
  rewrite !onChatsList_run. by destruct st.
Qed.

Lemma refresh_round_trip_witness :
  State.socketRef registering1 = Some newSocket
  ∧ State.chatSummaries
      (state_of (refresh (EmitListChatsParams.mk "t1")
                   [summary "a" 5; summary "b" 9] registering1))
    = [summary "b" 9; summary "a" 5].
Proof.
  split; [reflexivity|].
  destruct (refresh_round_trip (EmitListChatsParams.mk "t1")
              [summary "a" 5; summary "b" 9] registering1 newSocket eq_refl)
    as (H & _).
  rewrite H. reflexivity.
Defined.

(** X4: a refresh that is answered by [listChatsError] keeps the
    summaries held before, and leaves the hook loading and not loaded:
    the error listener resets no flag. *)
Theorem refresh_failure
    (params : EmitListChatsParams.t) (error : string) (st : State.t) :
  let r := (emitListChats params ;; onListChatsError error) st in
  State.chatSummaries (state_of r) = State.chatSummaries st
  ∧ State.areChatsLoading (state_of r) = true
  ∧ State.areChatsLoaded (state_of r) = false
  ∧ filter (λ x, is_console_error x = true) (effects_of r)
    = [ConsoleError ["Error listing chats:"%string; error]].
Proof.
  simpl. rewrite run_bind, emitListChats_run. unfold state_of, effects_of. simpl.
  repeat split. by destruct (State.socketRef st).
Qed.

(** ** More of the conversation store *)

(** X5: a fetch that is answered leaves the state that the answer alone
    would leave, with the loading flag down again and the fetched messages
    displayed, and its only effect is the one [listMessages] request. *)
Theorem fetch_round_trip
    (chats : Chats) (params : EmitListMessagesParams.t)
    (participants : list ChatUser.t) (l : list ChatMessage.t)
    (st : State.t) (s : Socket.t) :
  State.socketRef st = Some s →
  let r := fetch chats params participants l st in
  state_of r
    = state_of (onMessagesList chats (EmitListMessagesParams.roomId params)
                  participants l st)
  ∧ State.areMessagesLoading (state_of r) = false
  ∧ State.chatMessages (state_of r) = l
  ∧ effects_of r = [Emit (listMessages params)].
Proof.
  intros Hs. unfold fetch. rewrite run_bind, emitListMessages_run, Hs.
  rewrite !onMessagesList_run. by destruct st.
Qed.

Lemma fetch_round_trip_witness :
  State.socketRef registering1 = Some newSocket
  ∧ effects_of (fetch ∅ (EmitListMessagesParams.mk "c1" "t1")
                  [teacher1; student2] (Chat.messages stored1) registering1)
    = [Emit (listMessages (EmitListMessagesParams.mk "c1" "t1"))].
Proof.
  split; [reflexivity|].
  exact (proj2 (proj2 (proj2
    (fetch_round_trip ∅ (EmitListMessagesParams.mk "c1" "t1")
       [teacher1; student2] (Chat.messages stored1) registering1 newSocket
       eq_refl)))).
Defined.

Lemma onNewMessage_state chats incomingChat st :
  state_of (onNewMessage chats incomingChat st)
  = State.set_chatMessages (Chat.messages incomingChat)
      (State.set_chats (<[Chat.chatId incomingChat := incomingChat]> chats) st).
Proof.
  unfold onNewMessage, setChats, setChatMessages. hook_unfold. simpl.
  by destruct (State.socketRef st).
Qed.

(** X6: a push and a fetch response with the same conversation leave the
    same store and the same displayed messages; they differ in the loading
    flag, which only the fetch response resets, and in the
    acknowledgment, which only the push sends. *)
Theorem push_like_fetch_response
    (chats : Chats) (chatId : string) (participants : list ChatUser.t)
    (l : list ChatMessage.t) (st : State.t) :
  let pushed := state_of (onNewMessage chats (Chat.mk chatId participants l) st) in
  let fetched := state_of (onMessagesList chats chatId participants l st) in
  State.chats pushed = State.chats fetched
  ∧ State.chatMessages pushed = State.chatMessages fetched
  ∧ State.areMessagesLoading pushed = State.areMessagesLoading st
  ∧ fetched = State.set_areMessagesLoading false pushed
  ∧ effects_of (onMessagesList chats chatId participants l st) = [].
Proof.
  simpl. by rewrite onMessagesList_run, onNewMessage_state.
Qed.



(** X8: through the listeners that the effect installs, which spread the
    empty [chats] of the first render, a push or a fetch response leaves
    exactly one conversation in the store: the one it carries. *)
Theorem deliver_store_is_last_conversation
    (incomingChat : Chat.t) (chatId : string) (participants : list ChatUser.t)
    (l : list ChatMessage.t) (st : State.t) :
  State.socketRef st = Some newSocket →
  State.chats (state_of (deliver (newMessage incomingChat) st))
    = {[ Chat.chatId incomingChat := incomingChat ]}
  ∧ State.chats (state_of (deliver (messagesList chatId participants l) st))
    = {[ chatId := Chat.mk chatId participants l ]}.
Proof.
  intros Hs. rewrite !deliver_newSocket, !listener_run by done. done.
Qed.

Lemma deliver_store_is_last_conversation_witness :
  let st := state_of (deliver (newMessage stored1) registering1) in
  State.socketRef st = Some newSocket
  ∧ State.chats
      (state_of (deliver (messagesList "c2" [teacher1] []) st))
    = {[ "c2"%string := Chat.mk "c2" [teacher1] [] ]}.
Proof.
  split; [reflexivity|].
  exact (proj2 (deliver_store_is_last_conversation stored1 "c2" [teacher1] []
                  (state_of (deliver (newMessage stored1) registering1)) eq_refl)).
Defined.

(** X10: the two error events and the two unimplemented events change
    no state and emit nothing, in whatever state they arrive. *)
Theorem deliver_inert (e : InEvent) (st : State.t) :
  inert e = true →
  state_of (deliver e st) = st ∧ emissions (effects_of (deliver e st)) = [].
Proof.
  intros He. rewrite deliver_run.
  destruct (State.socketRef st); [|done].
  destruct (bool_decide _); [|done].
  rewrite listener_run. by destruct e.
Qed.

Lemma deliver_inert_witness :
  inert (listChatsError "down") = true
  ∧ state_of (deliver (listChatsError "down") registering1) = registering1.
Proof.
  split; [reflexivity|].
  exact (proj1 (deliver_inert (listChatsError "down") registering1 eq_refl)).
Defined.

(** ** More of the message dispatcher *)


(** X11: when no candidate is an unread message of somebody else (also
    when there is no candidate at all), [emitReadMessages] still emits a
    [readMessages] event, with an empty list of ids. *)
Theorem emitReadMessages_empty_receipt
    (info : Info.t) (getInfo : unit → option Info.t)
    (params : EmitReadMessagesParams.t) (st : State.t)
    (teacherId : string) (s : Socket.t) :
  resolveTeacherId info getInfo = Some teacherId →
  State.socketRef st = Some s →
  Forall (λ msg, ¬ unreadFromOthers teacherId msg)
         (EmitReadMessagesParams.unreadMessages params) →
  emissions (effects_of (emitReadMessages info getInfo params st))
  = [readMessages
       (ReadMessagesPayload.mk (EmitReadMessagesParams.chatId params) [])].
Proof.
  intros Hid Hs Hnone. rewrite emitReadMessages_run, Hid, Hs.
  rewrite collectUnread_filter.
  replace (filter _ _) with (@nil ChatMessage.t).
  - unfold effects_of, lookupLines. simpl. by destruct (truthy _).
  - symmetry. induction Hnone as [|msg l Hmsg _ IH]; [done|].
    by rewrite filter_cons, decide_False.
Qed.

Lemma emitReadMessages_empty_receipt_witness :
  resolveTeacherId info1 (λ _, None) = Some "t1"%string
  ∧ emissions (effects_of
      (emitReadMessages info1 (λ _, None)
         (EmitReadMessagesParams.mk "c1"
            [message "m1" teacher1 10 false; message "m3" student2 30 true])
         registering1))
    = [readMessages (ReadMessagesPayload.mk "c1" [])].
Proof.
  split; [reflexivity|].
  apply (emitReadMessages_empty_receipt info1 (λ _, None)
    (EmitReadMessagesParams.mk "c1"
       [message "m1" teacher1 10 false; message "m3" student2 30 true])
    registering1 "t1" newSocket eq_refl eq_refl).
  repeat constructor; intros [H1 H2]; simpl in *; congruence.
Defined.

(** X12: when [info.teacherID] is set, the stored info is not used:
    [emitReadMessages] does the same whatever [getInfo] returns, works
    with the id of [info], and prints nothing unless the socket is
    missing. *)
Theorem emitReadMessages_prefers_info
    (info : Info.t) (getInfo1 getInfo2 : unit → option Info.t)
    (params : EmitReadMessagesParams.t) (st : State.t) :
  truthy (Info.teacherID info) = true →
  emitReadMessages info getInfo1 params st = emitReadMessages info getInfo2 params st
  ∧ resolveTeacherId info getInfo1 = Info.teacherID info
  ∧ effects_of (emitReadMessages info getInfo1 params st)
    = if present (State.socketRef st)
      then [Emit (readMessages
              (ReadMessagesPayload.mk (EmitReadMessagesParams.chatId params)
                 (collectUnread (the_string (Info.teacherID info))
                    (EmitReadMessagesParams.unreadMessages params))))]
      else [ConsoleError ["Socket not found"%string]].
Proof.
  intros Ht. rewrite !emitReadMessages_run.
  unfold resolveTeacherId, lookupLines, effects_of. rewrite Ht. simpl.
  split; [done|]. split; [done|].
  destruct (Info.teacherID info); [|done]. by destruct (State.socketRef st).
Qed.

Lemma emitReadMessages_prefers_info_witness :
  truthy (Info.teacherID info1) = true
  ∧ emitReadMessages info1 (λ _, None)
      (EmitReadMessagesParams.mk "c1" []) registering1
    = emitReadMessages info1 (λ _, Some info1')
        (EmitReadMessagesParams.mk "c1" []) registering1.
Proof.
  split; [reflexivity|].
  exact (proj1 (emitReadMessages_prefers_info info1 (λ _, None) (λ _, Some info1')
                  (EmitReadMessagesParams.mk "c1" []) registering1 eq_refl)).
Defined.



(** X14: sending a message changes no local state: the message is not
    put into the store or into the displayed list.  It gets there with
    the push that follows, and a send followed by that push leaves the
    state that the push alone leaves. *)
Theorem emitSendMessage_then_push
    (chats : Chats) (params : EmitSendMessageParams.t) (incomingChat : Chat.t)
    (st : State.t) (s : Socket.t) :
  State.socketRef st = Some s →
  let r := (emitSendMessage params ;; onNewMessage chats incomingChat) st in
  state_of (emitSendMessage params st) = st
  ∧ state_of r = state_of (onNewMessage chats incomingChat st)
  ∧ emissions (effects_of r)
    = [sendMessage params; receiveMessage (head (Chat.messages incomingChat))].
Proof.
  intros Hs. simpl. unfold emitSendMessage.
  rewrite run_bind, (emit_connected _ _ _ Hs), (onNewMessage_run _ _ _ _ Hs).
  unfold state_of, effects_of. simpl.
  by destruct (Chat.messages incomingChat).
Qed.

Lemma emitSendMessage_then_push_witness :
  let r := (emitSendMessage (EmitSendMessageParams.mk "c1" teacher1 "hello" 30) ;;
            onNewMessage ∅ pushed1) registering1 in
  State.socketRef registering1 = Some newSocket
  ∧ State.chatMessages
      (state_of (emitSendMessage (EmitSendMessageParams.mk "c1" teacher1 "hello" 30)
                   registering1)) = []
  ∧ State.chatMessages (state_of r) = Chat.messages pushed1.
Proof.
  destruct (emitSendMessage_then_push ∅
              (EmitSendMessageParams.mk "c1" teacher1 "hello" 30) pushed1
              registering1 newSocket eq_refl) as (H1 & H2 & _).
  split; [reflexivity|]. split; [by rewrite H1 | by rewrite H2].
Defined.

(** ** More of the effect *)

(** X15: what one run of the effect emits.  Registered, it lists the
    chats of [info.teacherID] if that is set; unregistered, it registers
    if the identity is complete; otherwise it emits nothing.  The socket
    is there afterwards in every case. *)
Theorem effect_emissions (info : Info.t) (st : State.t) :
  effects_of (effect info st)
  = (if State.isRegistered st then
       if truthy (Info.teacherID info)
       then [Emit (listChatRooms
                     (EmitListChatsParams.mk (the_string (Info.teacherID info))))]
       else []
     else
       if identityComplete info
       then [Emit (registerUser (registrationParams info))]
       else [])
  ∧ State.socketRef (state_of (effect info st))
    = Some (default newSocket (State.socketRef st)).
Proof.
  pose proof (effect_run info st) as H. simpl in H. rewrite H.
  destruct st as [[s|] ? [] ? ? ? ? ? ? ?]; simpl;
    destruct (truthy (Info.teacherID info)), (identityComplete info); done.
Qed.

Lemma identityComplete_fields info :
  identityComplete info = true →
  truthy (Info.teacherID info) = true ∧ truthy (Info.preferredName info) = true
  ∧ truthy (Info.firstName info) = true ∧ truthy (Info.lastName info) = true.
Proof. unfold identityComplete. rewrite !andb_true_iff. tauto. Qed.

Lemma truthy_nonempty v : truthy v = true → the_string v ≠ ""%string.
Proof. destruct v as [s|]; [|done]. simpl. intros H ->. discriminate H. Qed.

(** X16: a [registerUser] that the effect emits never has an empty user
    id, preferred name, first name or last name, and its user type is
    "teacher". *)
Theorem effect_registers_complete_identity
    (info : Info.t) (st : State.t) (params : EmitRegisterUserParams) :
  Emit (registerUser params) ∈ effects_of (effect info st) →
  ChatUser.userId params ≠ ""%string
  ∧ ChatUser.preferredName params ≠ ""%string
  ∧ ChatUser.firstName params ≠ ""%string
  ∧ ChatUser.lastName params ≠ ""%string
  ∧ ChatUser.userType params = "teacher"%string.
Proof.
  intros Hin. rewrite (proj1 (effect_emissions info st)) in Hin.
  destruct (State.isRegistered st).
  { destruct (truthy _); [|by apply elem_of_nil in Hin].
    apply list_elem_of_singleton in Hin. discriminate Hin. }
  destruct (identityComplete info) eqn:Hc; [|by apply elem_of_nil in Hin].
  apply list_elem_of_singleton in Hin. injection Hin as ->.
  destruct (identityComplete_fields _ Hc) as (H1 & H2 & H3 & H4).
  unfold registrationParams. simpl.
  repeat split; by apply truthy_nonempty.
Qed.

Lemma effect_registers_complete_identity_witness :
  Emit (registerUser teacher1) ∈ effects_of (effect info1 State.init)
  ∧ ChatUser.userId teacher1 ≠ ""%string.
Proof.
  assert (Emit (registerUser teacher1) ∈ effects_of (effect info1 State.init))
    as Hin by (vm_compute; left).
  split; [exact Hin|].
  exact (proj1 (effect_registers_complete_identity info1 State.init teacher1 Hin)).
Defined.

(** ** Runs of the hook *)

Lemma emissions_app out1 out2 :
  emissions (out1 ++ out2) = emissions out1 ++ emissions out2.
Proof. apply omap_app. Qed.

(** X9: whatever renders and events follow the first render, the store
    never holds more than one conversation, and that one is filed under
    its own id. *)
Theorem run_atMostOneChat (steps : list Step) :
  atMostOneChat (State.chats (state_of (run steps State.init))).
Proof.
  apply (run_invariant (λ st, atMostOneChat (State.chats st)) (λ _, True)).
  - intros s st Hc. split; [by apply step_atMostOneChat|].
    apply Forall_forall. done.
  - by left.
Qed.

(** X17: the socket is made by the first run of the effect and is the
    same ever after: no render and no event replaces or drops it. *)
Theorem run_keeps_socket (info : Info.t) (steps : list Step) (st : State.t) :
  State.socketRef (state_of (run (Render info :: steps) st))
  = Some (default newSocket (State.socketRef st)).
Proof.
  rewrite run_cons. simpl step.
  pose proof (proj2 (effect_emissions info st)) as Hs.
  destruct (effect info st) as [[[] st1] out1]. unfold state_of in Hs. simpl in Hs.
  pose proof (run_invariant
    (λ st', State.socketRef st' = Some (default newSocket (State.socketRef st)))
    (λ _, True)) as Hinv.
  destruct (Hinv (λ s st' H, conj (step_socketRef s st' _ H)
                               (proj2 (Forall_forall _ _) (λ _ _, I)))
              steps st1 Hs) as [H _].
  by destruct (run steps st1) as [[[] st2] out2].
Qed.

(** X18: once registered, always registered, and never registering
    again: from a registered state no sequence of renders and events emits
    [registerUser] or takes [isRegistered] back. *)
Theorem run_registered_never_registers (steps : list Step) (st : State.t) :
  State.isRegistered st = true →
  State.isRegistered (state_of (run steps st)) = true
  ∧ registrations (effects_of (run steps st)) = 0%nat.
Proof.
  intros Hr.
  destruct (run_invariant (λ st', State.isRegistered st' = true)
              (λ x, is_registerUser x = false) step_isRegistered steps st Hr)
    as [H1 H2].
  split; [done|]. unfold registrations.
  induction H2 as [|x out Hx _ IH]; [done|].
  rewrite filter_cons, decide_False; [done|]. by rewrite Hx.
Qed.

Lemma run_registered_never_registers_witness :
  let registered := state_of (deliver (userRegistered "t1") registering1) in
  State.isRegistered registered = true
  ∧ registrations
      (effects_of (run [Render info1'; Receive (registerUserError "late");
                        Render noInfo; Render info1] registered)) = 0%nat.
Proof.
  split; [reflexivity|].
  exact (proj2 (run_registered_never_registers
    [Render info1'; Receive (registerUserError "late"); Render noInfo; Render info1]
    (state_of (deliver (userRegistered "t1") registering1)) eq_refl)).
Defined.

(** X19: a render or an inbound event leads to at most one emission, so
    a run emits at most as many events as it has steps. *)
Theorem run_emits_at_most_one_per_step (steps : list Step) (st : State.t) :
  (length (emissions (effects_of (run steps st))) ≤ length steps)%nat.
Proof.
  revert st. induction steps as [|s steps IH]; intros st; [done|].
  rewrite run_cons. pose proof (step_emits_at_most_one s st) as H1.
  destruct (step s st) as [[[] st1] out1]. specialize (IH st1).
  destruct (run steps st1) as [[[] st2] out2].
  unfold effects_of in *. simpl in *.
  rewrite emissions_app, length_app. lia.
Qed.


